(** * tools/install-vcpkg.py: the vcpkg bootstrapper

    The script computes the directory it lives in, clones vcpkg next to
    itself unless the directory [vcpkg] is already there, picks the
    bootstrap entry point by [platform.system()] and runs it.

    The script is a straight line of calls into the host: it reads the
    working directory and the file system, prints two lines and starts up
    to two subprocesses with [subprocess.check_call].  The embedding keeps
    that shape: the host is an interface ([Host]), the module body is a
    computation in a small monad that threads the host's state, records
    the calls that were made, in the order the script makes them, and
    stops at the first exception.  Both [print] and [check_call] can
    raise, and the interpreter's exit status depends on whether it can
    flush its standard output when it exits.

    [os.path] is embedded by its POSIX flavour (CPython's [posixpath]),
    the flavour whose separator the paths of the specification are
    written with.  [platform.system()] is an input of its own. *)

From Stdlib Require Import String Ascii List ZArith Bool Lia.
Import ListNotations.
Local Open Scope list_scope.
Local Open Scope string_scope.

(** ** The [str] methods the path functions rely on *)

Module str.

(** [s.startswith(prefix)] *)
Fixpoint startswith (s prefix : string) {struct prefix} : bool :=
  match prefix with
  | EmptyString => true
  | String a prefix' =>
      match s with
      | EmptyString => false
      | String b s' => Ascii.eqb a b && startswith s' prefix'
      end
  end.

(** [s.endswith(suffix)] *)
Fixpoint endswith (s suffix : string) : bool :=
  (s =? suffix) ||
  match s with
  | EmptyString => false
  | String _ s' => endswith s' suffix
  end.

(** [s.split(sep)] for a one-character separator: never empty, and
    adjacent separators delimit empty strings. *)
Fixpoint split (sep : ascii) (s : string) : list string :=
  match s with
  | EmptyString => [""]
  | String c s' =>
      if Ascii.eqb c sep then "" :: split sep s'
      else match split sep s' with
           | [] => [String c ""]
           | w :: ws => String c w :: ws
           end
  end.

(** [sep.join(words)] *)
Definition join (sep : string) (words : list string) : string :=
  String.concat sep words.

(** [s.rfind(c)]: the highest index of [c] in [s], or [-1]. *)
Fixpoint rfind (c : ascii) (s : string) : Z :=
  match s with
  | EmptyString => (-1)%Z
  | String a s' =>
      let r := rfind c s' in
      if (0 <=? r)%Z then (r + 1)%Z
      else if Ascii.eqb a c then 0%Z else (-1)%Z
  end.

(** [s[:i]] for [0 <= i] *)
Definition slice_to (s : string) (i : Z) : string :=
  String.substring 0 (Z.to_nat i) s.

(** [s.rstrip(c)]: [s] without its trailing run of [c]. *)
Fixpoint rstrip (c : ascii) (s : string) : string :=
  match s with
  | EmptyString => ""
  | String a s' =>
      match rstrip c s' with
      | EmptyString => if Ascii.eqb a c then "" else String a ""
      | r => String a r
      end
  end.

(** [s * n] *)
Fixpoint mul (s : string) (n : nat) : string :=
  match n with
  | O => ""
  | S n' => s ++ mul s n'
  end.



End str.

(** ** [os.path], POSIX flavour

    Each function follows CPython's [Lib/posixpath.py].  [abspath] reads
    [os.getcwd()]; here the working directory is its first argument. *)

Module os_path.

Definition sep : string := "/".
Definition sep_char : ascii := "/"%char.

(** [isabs(s)]: [s.startswith(sep)] *)
Definition isabs (s : string) : bool := str.startswith s sep.

(** [join(a, b)]:
<<
    if b.startswith(sep):                 path = b
    elif not path or path.endswith(sep):  path += b
    else:                                 path += sep + b
>> *)
Definition join (a b : string) : string :=
  if str.startswith b sep then b
  else if (a =? "") || str.endswith a sep then a ++ b
  else a ++ sep ++ b.

(** [dirname(p)]:
<<
    i = p.rfind(sep) + 1
    head = p[:i]
    if head and head != sep*len(head):
        head = head.rstrip(sep)
    return head
>> *)
Definition dirname (p : string) : string :=
  let i := (str.rfind sep_char p + 1)%Z in
  let head := str.slice_to p i in
  if negb (head =? "") && negb (head =? str.mul sep (String.length head))
  then str.rstrip sep_char head
  else head.

(** The number of leading slashes [normpath] keeps: POSIX allows one or
    two, and treats three or more as one. *)
Definition initial_slashes (path : string) : nat :=
  if str.startswith path sep then
    if str.startswith path (str.mul sep 2) && negb (str.startswith path (str.mul sep 3))
    then 2 else 1
  else 0.

(** One turn of [normpath]'s loop over the components:
<<
    if comp in (empty, dot):
        continue
    if (comp != dotdot or (not initial_slashes and not new_comps) or
         (new_comps and new_comps[-1] == dotdot)):
        new_comps.append(comp)
    elif new_comps:
        new_comps.pop()
>> *)
Definition norm_step (slashes : nat) (new_comps : list string) (comp : string)
  : list string :=
  if (comp =? "") || (comp =? ".") then new_comps
  else if negb (comp =? "..")
          || ((slashes =? 0)%nat && (length new_comps =? 0)%nat)
          || (negb (length new_comps =? 0)%nat && (last new_comps "" =? ".."))
  then (new_comps ++ [comp])%list
  else removelast new_comps.

(** What is left of [slashes] leading slashes and the components [comps]:
<<
    path = sep.join(comps)
    if initial_slashes:
        path = sep*initial_slashes + path
    return path or dot
>> *)
Definition render (slashes : nat) (comps : list string) : string :=
  let path := str.mul sep slashes ++ str.join sep comps in
  if path =? "" then "." else path.

(** [normpath(path)] *)
Definition normpath (path : string) : string :=
  if path =? "" then "."
  else
    let slashes := initial_slashes path in
    render slashes (fold_left (norm_step slashes) (str.split sep_char path) []).

(** [abspath(path)], with [cwd] for [os.getcwd()]:
<<
    if not isabs(path):
        cwd = os.getcwd()
        path = join(cwd, path)
    return normpath(path)
>> *)
Definition abspath (cwd path : string) : string :=
  if isabs path then normpath path else normpath (join cwd path).

End os_path.

(** ** The host

    What a run starts from and acts on.  The interpreter process knows its
    own [__file__], working directory and platform name; nothing the script
    does changes them.  The file system, the outcome of subprocesses and
    the state of standard output belong to the world outside, which a
    subprocess may change. *)

Record Process : Type := {
  file : string;             (* [__file__] *)
  getcwd : string;           (* [os.getcwd()] *)
  platform_system : string   (* [platform.system()] *)
}.

(** What [os.stat] finds under a path, as far as [isdir] tells kinds apart. *)
Inductive file_type : Type :=
| Directory
| RegularFile.

Class Host (W : Type) : Type := {
  (** [os.stat(path)]; [None] when it raises [OSError]: nothing is there. *)
  stat : W -> string -> option file_type;
  (** Run the command [argv] to completion: its exit status ([None] when
      the program could not be started) and the world it leaves. *)
  run_process : list string -> W -> option Z * W;
  (** Whether a [print] of the line returns: [sys.stdout] takes the text,
      writing it through or keeping it in its buffer.  [false] when the
      write raises [OSError], as on an unbuffered standard output that is
      a closed pipe or a full device. *)
  stdout_write : W -> string -> bool;
  (** Whether the interpreter can flush [sys.stdout] when it exits. *)
  stdout_flush : W -> bool
}.

(** ** Effects of the script *)

(** The exceptions [print] and [subprocess.check_call] raise here. *)
Inductive exn : Type :=
| CalledProcessError (returncode : Z) (cmd : list string)
| OSError.

Inductive result (A : Type) : Type :=
| Returned (a : A)
| Raised (e : exn).
Arguments Returned {A} a.
Arguments Raised {A} e.

(** The calls a run has made, in the order the script makes them:
    [Printed line] when [print] has returned for that line (with a
    buffered standard output the text reaches the terminal or the pipe
    later, at the latest when the interpreter exits), [Started argv status]
    when [check_call] has run [argv], with the status it got. *)
Inductive event : Type :=
| Printed (line : string)
| Started (argv : list string) (status : option Z).

(** A computation runs in a world and gives back its result, the world
    it leaves and the events it caused. *)
Definition Script (W A : Type) : Type := W -> result A * W * list event.

Definition ret {W A} (a : A) : Script W A := fun w => (Returned a, w, []).

(** Sequencing: an exception of the first computation ends the whole. *)
Definition bind {W A B} (m : Script W A) (k : A -> Script W B) : Script W B :=
  fun w =>
    match m w with
    | (Returned a, w1, log1) =>
        let '(r, w2, log2) := k a w1 in (r, w2, (log1 ++ log2)%list)
    | (Raised e, w1, log1) => (Raised e, w1, log1)
    end.

Declare Scope script_scope.
Delimit Scope script_scope with script.
Notation "x <- m ;; k" := (bind m (fun x => k))
  (at level 61, m at next level, right associativity) : script_scope.
Notation "m ;; k" := (bind m (fun _ => k))
  (at level 61, right associativity) : script_scope.

Section Primitives.
Context {W : Type} `{Host W}.

(** [print(line)]: returns when standard output takes the line, and
    raises [OSError] when the write fails. *)
Definition print (line : string) : Script W unit :=
  fun w =>
    if stdout_write w line then (Returned tt, w, [Printed line])
    else (Raised OSError, w, []).

(** [os.path.isdir(s)]:
<<
    try:
        st = os.stat(s)
    except (OSError, ValueError):
        return False
    return stat.S_ISDIR(st.st_mode)
>> *)
Definition isdir_in (w : W) (s : string) : bool :=
  match stat w s with
  | Some Directory => true
  | _ => false
  end.

Definition isdir (s : string) : Script W bool :=
  fun w => (Returned (isdir_in w s), w, []).

(** [os.path.exists(path)]: [os.stat] finds something.  The script does
    not call it; statements use it to tell a missing path from a file. *)
Definition exists_in (w : W) (path : string) : bool :=
  match stat w path with
  | Some _ => true
  | None => false
  end.

(** The check [subprocess.check_call(cmd)] makes on the return code:
<<
    retcode = call(cmd)
    if retcode:
        raise CalledProcessError(retcode, cmd)
    return 0
>>
    [call] itself raises [OSError] when the program cannot be started. *)
Definition check (cmd : list string) (status : option Z) : result Z :=
  match status with
  | Some retcode =>
      if (retcode =? 0)%Z then Returned 0%Z
      else Raised (CalledProcessError retcode cmd)
  | None => Raised OSError
  end.

Definition check_call (cmd : list string) : Script W Z :=
  fun w =>
    let '(status, w') := run_process cmd w in
    (check cmd status, w', [Started cmd status]).

End Primitives.

(** ** The script, [tools/install-vcpkg.py] *)

Local Open Scope script_scope.

(** [tools_dir = os.path.dirname(os.path.abspath(__file__))] *)
Definition tools_dir (p : Process) : string :=
  os_path.dirname (os_path.abspath (getcwd p) (file p)).

(** [vcpkg_dir = os.path.join(tools_dir, "vcpkg")] *)
Definition vcpkg_dir (p : Process) : string :=
  os_path.join (tools_dir p) "vcpkg".

(** The command of line 13. *)
Definition clone_command (vcpkg_dir : string) : list string :=
  ["git"; "clone"; "https://github.com/Microsoft/vcpkg.git"; vcpkg_dir].

(** Lines 18-21:
<<
    if system_platform == "Windows":
        bootstrap_script = os.path.join(vcpkg_dir, "bootstrap-vcpkg.bat")
    else:
        bootstrap_script = os.path.join(vcpkg_dir, "bootstrap-vcpkg.sh")
>> *)
Definition bootstrap_script (system_platform vcpkg_dir : string) : string :=
  if system_platform =? "Windows"
  then os_path.join vcpkg_dir "bootstrap-vcpkg.bat"
  else os_path.join vcpkg_dir "bootstrap-vcpkg.sh".

(** The command of line 25. *)
Definition bootstrap_command (bootstrap_script : string) : list string :=
  [bootstrap_script; "-disableMetrics"].

(** The module body, line by line. *)
Definition main {W : Type} `{Host W} (p : Process) : Script W unit :=
  let vcpkg_dir := vcpkg_dir p in
  present <- isdir vcpkg_dir ;;
  (if negb present then
     print "Cloning vcpkg from GitHub..." ;;
     check_call (clone_command vcpkg_dir) ;;
     ret tt
   else ret tt) ;;
  let system_platform := platform_system p in
  let bootstrap_script := bootstrap_script system_platform vcpkg_dir in
  print "Installing vcpkg..." ;;
  check_call (bootstrap_command bootstrap_script) ;;
  ret tt.

(** The exit status of the interpreter.  When it cannot flush standard
    output at exit the status is [120], whatever the module body did.
    Otherwise it is [0] when the module body ran to its end and [1] when
    an exception left it uncaught (the script has no [try] and never
    calls [sys.exit]). *)
Definition exit_status {A : Type} (flushed : bool) (r : result A) : Z :=
  if flushed then
    match r with
    | Returned _ => 0%Z
    | Raised _ => 1%Z
    end
  else 120%Z.

(** *** Reading a run *)

Section Run.
Context {W : Type} `{Host W}.

Definition run_result (p : Process) (w : W) : result unit := fst (fst (main p w)).
Definition run_world (p : Process) (w : W) : W := snd (fst (main p w)).
Definition run_log (p : Process) (w : W) : list event := snd (main p w).

(** The exit status of the program: the flush at exit happens in the
    world the run leaves. *)
Definition run_exit_status (p : Process) (w : W) : Z :=
  exit_status (stdout_flush (run_world p w)) (run_result p w).

End Run.

(** The commands of a log, in the order they were started. *)
Fixpoint started (log : list event) : list (list string) :=
  match log with
  | [] => []
  | Printed _ :: log' => started log'
  | Started argv _ :: log' => argv :: started log'
  end.

(** A [git clone] command, whatever its source and destination. *)
Definition is_clone (argv : list string) : bool :=
  match argv with
  | program :: subcommand :: _ => (program =? "git") && (subcommand =? "clone")
  | _ => false
  end.

(** ** A host to run the script on

    A file system that is a table of paths, subprocesses whose exit
    status is given per command, and a standard output of one of three
    kinds.  A [git clone] that exits with [0] leaves its destination
    behind as a directory. *)

(** Standard output takes everything; or it is unbuffered and rejects
    every write, so that [print] raises; or it is buffered and cannot be
    flushed, so that [print] returns and the flush at exit fails. *)
Inductive stdout_kind : Type :=
| Accepting
| Rejecting
| Unflushable.

Record toy : Type := {
  entries : list (string * file_type);
  exits : list string -> option Z;
  stdout : stdout_kind
}.

Fixpoint lookup (path : string) (table : list (string * file_type)) : option file_type :=
  match table with
  | [] => None
  | (q, t) :: table' => if path =? q then Some t else lookup path table'
  end.

Definition toy_run (argv : list string) (w : toy) : option Z * toy :=
  (exits w argv,
   match argv, exits w argv with
   | [_; _; _; destination], Some 0%Z =>
       if is_clone argv
       then {| entries := (destination, Directory) :: entries w;
               exits := exits w; stdout := stdout w |}
       else w
   | _, _ => w
   end).

#[export] Instance toy_host : Host toy := {
  stat w path := lookup path (entries w);
  run_process := toy_run;
  stdout_write w _ := match stdout w with Rejecting => false | _ => true end;
  stdout_flush w := match stdout w with Unflushable => false | _ => true end
}.

(** Sample runs: the script of a checkout under [/srv/proj], started from
    somewhere else, on Linux and on Windows. *)
Definition on_linux : Process :=
  {| file := "/srv/proj/tools/install-vcpkg.py"; getcwd := "/home/dev";
     platform_system := "Linux" |}.

Definition on_windows : Process :=
  {| file := "/srv/proj/tools/install-vcpkg.py"; getcwd := "/home/dev";
     platform_system := "Windows" |}.

(** The same script, named relative to two working directories. *)
Definition from_checkout : Process :=
  {| file := "tools/install-vcpkg.py"; getcwd := "/srv/proj"; platform_system := "Linux" |}.

Definition from_sibling : Process :=
  {| file := "../proj/./tools/install-vcpkg.py"; getcwd := "/srv/other";
     platform_system := "Linux" |}.


(** Nothing on disk, every command succeeds. *)
Definition fresh_checkout : toy :=
  {| entries := []; exits := fun _ => Some 0%Z; stdout := Accepting |}.

(** Nothing on disk, and [git clone] exits with 128. *)
Definition clone_fails : toy :=
  {| entries := [];
     exits := fun argv => if is_clone argv then Some 128%Z else Some 0%Z;
     stdout := Accepting |}.


(** vcpkg is already cloned, every command succeeds. *)
Definition cloned : toy :=
  {| entries := [("/srv/proj/tools/vcpkg", Directory)]; exits := fun _ => Some 0%Z;
     stdout := Accepting |}.

(** A regular file sits where the clone should go. *)
Definition file_in_the_way : toy :=
  {| entries := [("/srv/proj/tools/vcpkg", RegularFile)]; exits := fun _ => Some 0%Z;
     stdout := Accepting |}.



(** Nothing on disk, every command would succeed, and standard output
    rejects every write. *)
Definition fresh_checkout_unwritable : toy :=
  {| entries := []; exits := fun _ => Some 0%Z; stdout := Rejecting |}.


(** A regular file sits where the clone should go, and standard output
    rejects every write. *)
Definition file_in_the_way_unwritable : toy :=
  {| entries := [("/srv/proj/tools/vcpkg", RegularFile)]; exits := fun _ => Some 0%Z;
     stdout := Rejecting |}.

(** ** Where the script is

    The location a path names, read off the path alone, as the file system
    resolves it when no name on the way is a symbolic link: how many
    leading slashes count ([0] for a path that starts nowhere in
    particular, [2] for the two slashes POSIX sets apart) and the names
    entered from there, innermost first. *)

Record location : Type := {
  root : nat;
  inner : list string
}.

(** Entering one component from a location: an empty component or [.]
    stays, [..] leaves the innermost directory, anything else descends.
    Above the root [..] stays; above a relative start it is remembered. *)
Definition enter (l : location) (name : string) : location :=
  if (name =? "") || (name =? ".") then l
  else if name =? ".." then
    match inner l with
    | [] => if (root l =? 0)%nat then {| root := 0; inner := [".."] |} else l
    | innermost :: outer =>
        if innermost =? ".."
        then {| root := root l; inner := ".." :: inner l |}
        else {| root := root l; inner := outer |}
    end
  else {| root := root l; inner := name :: inner l |}.

(** Following a path, component by component. *)
Definition follow (l : location) (path : string) : location :=
  fold_left enter (str.split os_path.sep_char path) l.

(** Where a path leads when followed from its own start. *)
Definition locate (path : string) : location :=
  follow {| root := os_path.initial_slashes path; inner := [] |} path.

(** The location of the running script: [__file__] followed from the
    working directory, unless it is absolute. *)
Definition script_location (p : Process) : location :=
  if os_path.isabs (file p) then locate (file p)
  else follow (locate (getcwd p)) (file p).

(** The path that spells a location out. *)
Definition path_of (l : location) : string :=
  os_path.render (root l) (rev (inner l)).

(** * Properties *)

(** ** The path functions on sample paths, as CPython answers *)

Example abspath_relative :
  os_path.abspath "/srv/proj" "tools/install-vcpkg.py" = "/srv/proj/tools/install-vcpkg.py"
  /\ os_path.abspath "/srv/proj/x" "../tools/./install-vcpkg.py"
     = "/srv/proj/tools/install-vcpkg.py"
  /\ os_path.abspath "/home/dev" "/srv/proj/tools/install-vcpkg.py"
     = "/srv/proj/tools/install-vcpkg.py".
Proof. repeat split; reflexivity. Qed.

Example dirname_samples :
  os_path.dirname "/srv/proj/tools/install-vcpkg.py" = "/srv/proj/tools"
  /\ os_path.dirname "/install-vcpkg.py" = "/"
  /\ os_path.dirname "install-vcpkg.py" = ""
  /\ os_path.dirname "//install-vcpkg.py" = "//"
  /\ os_path.dirname "/a//b" = "/a".
Proof. repeat split; reflexivity. Qed.

Example normpath_samples :
  os_path.normpath "//a/../../b//c/" = "//b/c"
  /\ os_path.normpath "///a/../../b//c/" = "/b/c"
  /\ os_path.normpath "a/../../b" = "../b"
  /\ os_path.normpath "" = ".".
Proof. repeat split; reflexivity. Qed.

Example join_samples :
  os_path.join "/a/" "b" = "/a/b"
  /\ os_path.join "" "b" = "b"
  /\ os_path.join "/a" "/b" = "/b"
  /\ os_path.join "/a" "b" = "/a/b".
Proof. repeat split; reflexivity. Qed.

Example sample_paths :
  tools_dir on_linux = "/srv/proj/tools"
  /\ vcpkg_dir on_linux = "/srv/proj/tools/vcpkg"
  /\ bootstrap_script "Linux" (vcpkg_dir on_linux)
     = "/srv/proj/tools/vcpkg/bootstrap-vcpkg.sh"
  /\ bootstrap_script "Windows" (vcpkg_dir on_windows)
     = "/srv/proj/tools/vcpkg/bootstrap-vcpkg.bat".
Proof. repeat split; reflexivity. Qed.

(** A first run clones and bootstraps; a second run, in the world the
    first one left, only bootstraps. *)
Example first_and_second_run :
  started (run_log on_linux fresh_checkout)
  = [ clone_command "/srv/proj/tools/vcpkg";
      ["/srv/proj/tools/vcpkg/bootstrap-vcpkg.sh"; "-disableMetrics"] ]
  /\ started (run_log on_linux (run_world on_linux fresh_checkout))
     = [ ["/srv/proj/tools/vcpkg/bootstrap-vcpkg.sh"; "-disableMetrics"] ].
Proof. split; reflexivity. Qed.

(** ** Strings and paths *)

Lemma append_assoc (a b c : string) : (a ++ b) ++ c = a ++ b ++ c.
Proof. induction a as [|x a IH]; simpl; [reflexivity | now rewrite IH]. Qed.

(** A path that ends in the name [vcpkg] is not empty and does not end in
    a separator. *)
Lemma ends_in_vcpkg (x : string) :
  x ++ "vcpkg" <> "" /\ str.endswith (x ++ "vcpkg") os_path.sep = false.
Proof.
  induction x as [|c x [IHne IHend]].
  - split; [discriminate | reflexivity].
  - split; [discriminate |].
    cbn [append str.endswith]. rewrite IHend, orb_false_r.
    apply String.eqb_neq. unfold os_path.sep. intros E. injection E as _ E.
    now apply IHne.
Qed.

Lemma vcpkg_dir_shape (p : Process) :
  vcpkg_dir p <> "" /\ str.endswith (vcpkg_dir p) os_path.sep = false.
Proof.
  unfold vcpkg_dir, os_path.join.
  change (str.startswith "vcpkg" os_path.sep) with false. cbv iota.
  destruct ((tools_dir p =? "") || str.endswith (tools_dir p) os_path.sep).
  - apply ends_in_vcpkg.
  - rewrite <- append_assoc. apply ends_in_vcpkg.
Qed.

(** Under [vcpkg_dir] a relative name is joined with one separator. *)
Lemma join_vcpkg_dir (p : Process) (name : string) :
  str.startswith name os_path.sep = false ->
  os_path.join (vcpkg_dir p) name = vcpkg_dir p ++ "/" ++ name.
Proof.
  intros Hrel. destruct (vcpkg_dir_shape p) as [Hne Hend].
  unfold os_path.join. rewrite Hrel, Hend.
  apply String.eqb_neq in Hne. now rewrite Hne.
Qed.

Lemma bootstrap_script_windows (p : Process) :
  bootstrap_script "Windows" (vcpkg_dir p) = vcpkg_dir p ++ "/bootstrap-vcpkg.bat".
Proof. unfold bootstrap_script. cbn [String.eqb Ascii.eqb Bool.eqb]. now rewrite join_vcpkg_dir. Qed.

Lemma bootstrap_script_other (p : Process) (system_platform : string) :
  system_platform <> "Windows" ->
  bootstrap_script system_platform (vcpkg_dir p) = vcpkg_dir p ++ "/bootstrap-vcpkg.sh".
Proof.
  intros Hne. unfold bootstrap_script.
  apply String.eqb_neq in Hne. rewrite Hne. now rewrite join_vcpkg_dir.
Qed.

(** ** The shape of a run *)

(** A bootstrap command is no [git clone], whatever its script. *)
Lemma bootstrap_is_no_clone (script : string) :
  is_clone (bootstrap_command script) = false.
Proof. unfold is_clone, bootstrap_command. apply andb_false_r. Qed.

Section Runs.
Context {W : Type} `{Host W}.

(** A run takes one of six courses.  With the directory there: the print
    that announces the bootstrap raises, or the bootstrap runs.  With the
    directory missing: the print that announces the clone raises; or the
    clone is started and fails; or it succeeds and the print that
    announces the bootstrap raises; or the bootstrap follows. *)
Lemma main_cases (p : Process) (w : W) :
  let clone := clone_command (vcpkg_dir p) in
  let boot := bootstrap_command (bootstrap_script (platform_system p) (vcpkg_dir p)) in
  let cloning := "Cloning vcpkg from GitHub..." in
  let installing := "Installing vcpkg..." in
  (isdir_in w (vcpkg_dir p) = true /\
   stdout_write w installing = false /\
   main p w = (Raised OSError, w, []))
  \/
  (isdir_in w (vcpkg_dir p) = true /\
   stdout_write w installing = true /\
   exists status w',
     run_process boot w = (status, w') /\
     main p w =
       (match check boot status with Returned _ => Returned tt | Raised e => Raised e end,
        w', [Printed installing; Started boot status]))
  \/
  (isdir_in w (vcpkg_dir p) = false /\
   stdout_write w cloning = false /\
   main p w = (Raised OSError, w, []))
  \/
  (isdir_in w (vcpkg_dir p) = false /\
   stdout_write w cloning = true /\
   exists status w' e,
     run_process clone w = (status, w') /\
     status <> Some 0%Z /\
     check clone status = Raised e /\
     main p w = (Raised e, w', [Printed cloning; Started clone status]))
  \/
  (isdir_in w (vcpkg_dir p) = false /\
   stdout_write w cloning = true /\
   exists w1,
     run_process clone w = (Some 0%Z, w1) /\
     stdout_write w1 installing = false /\
     main p w = (Raised OSError, w1, [Printed cloning; Started clone (Some 0%Z)]))
  \/
  (isdir_in w (vcpkg_dir p) = false /\
   stdout_write w cloning = true /\
   exists w1 status w',
     run_process clone w = (Some 0%Z, w1) /\
     stdout_write w1 installing = true /\
     run_process boot w1 = (status, w') /\
     main p w =
       (match check boot status with Returned _ => Returned tt | Raised e => Raised e end,
        w', [Printed cloning; Started clone (Some 0%Z);
             Printed installing; Started boot status])).
Proof.
  intros clone boot cloning installing.
  unfold main, bind, isdir, print, check_call, ret.
  fold clone. fold boot. fold cloning. fold installing.
  destruct (isdir_in w (vcpkg_dir p)) eqn:Hdir; cbn [negb].
  - destruct (stdout_write w installing) eqn:Hout.
    + right. left. split; [reflexivity |]. split; [reflexivity |].
      destruct (run_process boot w) as [status w'] eqn:Hboot.
      exists status, w'. split; [reflexivity |].
      destruct (check boot status); reflexivity.
    + left. repeat (split; [reflexivity |]). reflexivity.
  - do 2 right.
    destruct (stdout_write w cloning) eqn:Hcl.
    + right.
      destruct (run_process clone w) as [status w1] eqn:Hclone.
      destruct (check clone status) as [z | e] eqn:Hcheck.
      * right.
        assert (status = Some 0%Z) as ->.
        { destruct status as [rc |]; cbn in Hcheck; [| discriminate].
          destruct (Z.eqb_spec rc 0); [now subst | discriminate]. }
        destruct (stdout_write w1 installing) eqn:Hout.
        -- right. split; [reflexivity |]. split; [reflexivity |].
           destruct (run_process boot w1) as [status w'] eqn:Hboot.
           exists w1, status, w'.
           split; [reflexivity |]. split; [exact Hout |]. split; [exact Hboot |].
           destruct (check boot status); reflexivity.
        -- left. split; [reflexivity |]. split; [reflexivity |].
           exists w1. split; [reflexivity |]. split; [exact Hout | reflexivity].
      * left. split; [reflexivity |]. split; [reflexivity |].
        exists status, w1, e. split; [reflexivity |].
        split; [intros ->; discriminate Hcheck |].
        split; [exact Hcheck | reflexivity].
    + left. repeat (split; [reflexivity |]). reflexivity.
Qed.

End Runs.

(** ** The claims about runs *)

(** Rewrites a goal about [run_result], [run_world], [run_log] and
    [run_exit_status] into one about the six courses of [main_cases]. *)
Ltac by_course p w :=
  unfold run_exit_status, run_result, run_world, run_log;
  destruct (main_cases p w)
    as [ (Hdir & Hout & ->)
       | [ (Hdir & Hout & status & w' & Hboot & ->)
         | [ (Hdir & Hcl & ->)
           | [ (Hdir & Hcl & status & w' & e & Hclone & Hfail & Hcheck & ->)
             | [ (Hdir & Hcl & w1 & Hclone & Hout & ->)
               | (Hdir & Hcl & w1 & status & w' & Hclone & Hout & Hboot & ->) ] ] ] ] ];
  cbn [fst snd].


(** Splits membership in an explicit log into its events. *)
Ltac in_log H :=
  cbn [In] in H;
  repeat match type of H with
         | _ \/ _ => destruct H as [H | H]
         | False => contradiction
         end;
  try discriminate H; try (injection H as ? ?; subst).

Section Claims.
Context {W : Type} `{Host W}.


(** C2.  When the clone subprocess exits with a non-zero status, it is
    the only subprocess of the run: the bootstrap is never started and
    the clone is not tried again.  The run ends there, with the world as
    the clone left it and with the [CalledProcessError] of that status
    and that command. *)
Theorem clone_failure_ends_run (p : Process) (w : W) (argv : list string) (rc : Z) :
  In (Started argv (Some rc)) (run_log p w) ->
  is_clone argv = true ->
  rc <> 0%Z ->
  argv = clone_command (vcpkg_dir p) /\
  run_log p w = [Printed "Cloning vcpkg from GitHub..."; Started argv (Some rc)] /\
  started (run_log p w) = [argv] /\
  ~ In (bootstrap_command (bootstrap_script (platform_system p) (vcpkg_dir p)))
       (started (run_log p w)) /\
  run_result p w = Raised (CalledProcessError rc argv) /\
  run_world p w = snd (run_process argv w).
Proof.
  intros Hin Hclone_cmd Hrc. revert Hin.
  by_course p w; intros Hin; in_log Hin;
    try (rewrite bootstrap_is_no_clone in Hclone_cmd; discriminate Hclone_cmd);
    try contradiction.
  cbn [check] in Hcheck.
  destruct (Z.eqb_spec rc 0); [contradiction |]. injection Hcheck as <-.
  rewrite Hclone. cbn [snd started].
  repeat (split; [reflexivity |]). split; [| split; reflexivity].
  intros [Heq | []]. discriminate Heq.
Qed.

(** C3.  When the directory [<script_dir>/vcpkg] is already there, the
    run starts no [git clone]; and when the print that announces the
    bootstrap returns, the bootstrap is the only subprocess. *)
Theorem no_clone_when_directory_exists (p : Process) (w : W) :
  isdir_in w (vcpkg_dir p) = true ->
  filter is_clone (started (run_log p w)) = [] /\
  (stdout_write w "Installing vcpkg..." = true ->
   started (run_log p w) =
     [bootstrap_command (bootstrap_script (platform_system p) (vcpkg_dir p))]).
Proof.
  intros Hpresent.
  by_course p w; try congruence.
  - split; [reflexivity | congruence].
  - cbn [started filter]. rewrite bootstrap_is_no_clone. split; reflexivity.
Qed.

(** C4, as amended.  When [<script_dir>/vcpkg] is not a directory and the
    print that announces the clone returns, the run starts [git clone]
    exactly once, as its first subprocess, from the fixed URL into the
    computed target directory. *)
Theorem one_clone_when_directory_missing (p : Process) (w : W) :
  isdir_in w (vcpkg_dir p) = false ->
  stdout_write w "Cloning vcpkg from GitHub..." = true ->
  filter is_clone (started (run_log p w)) =
    [["git"; "clone"; "https://github.com/Microsoft/vcpkg.git"; vcpkg_dir p]] /\
  hd_error (started (run_log p w)) =
    Some ["git"; "clone"; "https://github.com/Microsoft/vcpkg.git"; vcpkg_dir p].
Proof.
  intros Habsent Hprinted.
  by_course p w; try congruence.
  - split; reflexivity.
  - split; reflexivity.
  - cbn [started filter]. rewrite bootstrap_is_no_clone. split; reflexivity.
Qed.

(** C5.  The bootstrap entry point is [<target_dir>/bootstrap-vcpkg.bat]
    when the platform identifier is ["Windows"] and
    [<target_dir>/bootstrap-vcpkg.sh] for every other identifier, and the
    only command a run starts besides the clone is the entry point so
    selected. *)
Theorem bootstrap_script_by_platform (p : Process) (w : W) :
  (platform_system p = "Windows" ->
   bootstrap_script (platform_system p) (vcpkg_dir p)
   = vcpkg_dir p ++ "/bootstrap-vcpkg.bat")
  /\
  (platform_system p <> "Windows" ->
   bootstrap_script (platform_system p) (vcpkg_dir p)
   = vcpkg_dir p ++ "/bootstrap-vcpkg.sh")
  /\
  (forall argv,
      In argv (started (run_log p w)) -> argv <> clone_command (vcpkg_dir p) ->
      hd_error argv = Some (bootstrap_script (platform_system p) (vcpkg_dir p))).
Proof.
  split; [| split].
  - intros ->. apply bootstrap_script_windows.
  - apply bootstrap_script_other.
  - intros argv Hin Hother. revert Hin.
    by_course p w; cbn [started In]; intuition (subst; try reflexivity; contradiction).
Qed.

(** C6.  Whenever a run starts the bootstrap, it starts it with exactly
    one argument, [-disableMetrics], on every platform and whether or not
    it cloned: every command of a run that is not the clone is the
    bootstrap script with that flag.  A run that reaches the bootstrap
    step, the print that announces it having returned, does start it, as
    the last thing it does.  That print returns exactly when standard
    output takes its line and the directory was there, or it was missing,
    the print that announces the clone returned and the clone exited with
    status 0. *)
Theorem bootstrap_disables_metrics (p : Process) (w : W) :
  (forall argv,
      In argv (started (run_log p w)) -> is_clone argv = false ->
      argv = [bootstrap_script (platform_system p) (vcpkg_dir p); "-disableMetrics"])
  /\
  (In (Printed "Installing vcpkg...") (run_log p w) ->
   exists status,
     last (run_log p w) (Printed "")
     = Started [bootstrap_script (platform_system p) (vcpkg_dir p); "-disableMetrics"]
               status)
  /\
  (In (Printed "Installing vcpkg...") (run_log p w) <->
   (isdir_in w (vcpkg_dir p) = true /\ stdout_write w "Installing vcpkg..." = true)
   \/
   (isdir_in w (vcpkg_dir p) = false /\
    stdout_write w "Cloning vcpkg from GitHub..." = true /\
    fst (run_process (clone_command (vcpkg_dir p)) w) = Some 0%Z /\
    stdout_write (snd (run_process (clone_command (vcpkg_dir p)) w))
                 "Installing vcpkg..." = true)).
Proof.
  split; [| split].
  - by_course p w; intros argv Hin Hnot; cbn [started In] in Hin;
      repeat match type of Hin with
             | _ \/ _ => destruct Hin as [Hin | Hin]
             | False => contradiction
             end;
      subst; try discriminate Hnot; reflexivity.
  - by_course p w; intros Hin; in_log Hin; exists status; reflexivity.
  - by_course p w.
    + split; [intros Hin; in_log Hin |]. intros [[_ Hw] | [Hno _]]; congruence.
    + split; [intros _; left; split; assumption |]. intros _. left. reflexivity.
    + split; [intros Hin; in_log Hin |]. intros [[Hyes _] | (_ & Hw & _)]; congruence.
    + split; [intros Hin; in_log Hin |].
      intros [[Hyes _] | (_ & _ & Hok & _)]; [congruence |].
      rewrite Hclone in Hok. contradiction.
    + split; [intros Hin; in_log Hin |].
      intros [[Hyes _] | (_ & _ & _ & Hw)]; [congruence |].
      rewrite Hclone in Hw. cbn [snd] in Hw. congruence.
    + split; [| intros _; right; right; left; reflexivity].
      intros _. right. rewrite Hclone. repeat split; assumption.
Qed.


(** C9, as amended.  The check before the clone is [os.path.isdir], not
    [os.path.exists]: the run starts the clone exactly when the target
    path is not a directory and the print that announces the clone
    returns.  So when something that is not a directory sits at the
    target path and that print returns, the clone is still started, with
    the path as its destination. *)
Theorem clone_when_path_is_not_a_directory (p : Process) (w : W) :
  ((exists status,
       In (Started ["git"; "clone"; "https://github.com/Microsoft/vcpkg.git"; vcpkg_dir p]
                   status) (run_log p w))
   <-> isdir_in w (vcpkg_dir p) = false /\
       stdout_write w "Cloning vcpkg from GitHub..." = true)
  /\
  (exists_in w (vcpkg_dir p) = true ->
   isdir_in w (vcpkg_dir p) = false ->
   stdout_write w "Cloning vcpkg from GitHub..." = true ->
   exists status,
     hd_error (run_log p w) = Some (Printed "Cloning vcpkg from GitHub...") /\
     nth_error (run_log p w) 1
     = Some (Started ["git"; "clone"; "https://github.com/Microsoft/vcpkg.git"; vcpkg_dir p]
                     status)).
Proof.
  split.
  - by_course p w; rewrite Hdir.
    + split; [intros [st Hin]; in_log Hin | intros [Hno _]; discriminate Hno].
    + split; [intros [st Hin]; in_log Hin | intros [Hno _]; discriminate Hno].
    + split; [intros [st Hin]; in_log Hin | intros [_ Hyes]; congruence].
    + split; [intros _; split; [reflexivity | exact Hcl] |].
      intros _. exists status. right. left. reflexivity.
    + split; [intros _; split; [reflexivity | exact Hcl] |].
      intros _. exists (Some 0%Z). right. left. reflexivity.
    + split; [intros _; split; [reflexivity | exact Hcl] |].
      intros _. exists (Some 0%Z). right. left. reflexivity.
  - intros _ Hnodir Hprinted.
    by_course p w; try congruence.
    + exists status. split; reflexivity.
    + exists (Some 0%Z). split; reflexivity.
    + exists (Some 0%Z). split; reflexivity.
Qed.


End Claims.

(** ** Paths and locations

    [abspath] spells out the location of the script: [normpath] keeps its
    components in a list that grows at the end, a location keeps the names
    entered innermost first, and joining the working directory with a
    relative [__file__] amounts to following [__file__] from where the
    working directory leads. *)

Lemma split_not_nil (c : ascii) (s : string) : str.split c s <> [].
Proof.
  induction s as [|a s IH]; cbn [str.split]; [discriminate |].
  destruct (Ascii.eqb a c); [discriminate |].
  destruct (str.split c s); [contradiction | discriminate].
Qed.

(** Splitting at a separator splits the components. *)
Lemma split_app_sep (c : ascii) (a b : string) :
  str.split c (a ++ String c b) = (str.split c a ++ str.split c b)%list.
Proof.
  induction a as [|x a IH]; cbn [append str.split].
  - now rewrite Ascii.eqb_refl.
  - rewrite IH. destruct (Ascii.eqb x c); [reflexivity |].
    pose proof (split_not_nil c a) as Hne.
    destruct (str.split c a); [contradiction | reflexivity].
Qed.

Lemma endswith_sep_inv (s : string) :
  str.endswith s os_path.sep = true -> exists a, s = a ++ os_path.sep.
Proof.
  induction s as [|x s IH]; cbn [str.endswith].
  - discriminate.
  - intros Hend. apply orb_true_iff in Hend as [Heq | Hend].
    + apply String.eqb_eq in Heq. exists "". exact Heq.
    + destruct (IH Hend) as [a ->]. exists (String x a). reflexivity.
Qed.

(** One turn of [normpath]'s loop is one component entered. *)
Lemma norm_step_enter (k : nat) (names : list string) (name : string) :
  root (enter {| root := k; inner := names |} name) = k /\
  rev (inner (enter {| root := k; inner := names |} name))
  = os_path.norm_step k (rev names) name.
Proof.
  unfold enter, os_path.norm_step. cbn [root inner].
  destruct ((name =? "") || (name =? ".")); [split; reflexivity |].
  destruct (String.eqb_spec name "..") as [-> | _]; cbn [negb orb].
  - destruct names as [|innermost outer]; cbn [rev length Nat.eqb andb orb negb app].
    + rewrite andb_true_r.
      destruct (Nat.eqb_spec k 0) as [-> |]; split; reflexivity.
    + rewrite length_app, Nat.add_comm. cbn [length Nat.add Nat.eqb negb andb].
      rewrite andb_false_r, last_last. cbn [orb].
      destruct (innermost =? "..").
      * split; reflexivity.
      * rewrite removelast_last. split; reflexivity.
  - split; reflexivity.
Qed.

Lemma follow_normpath_loop (comps : list string) (l : location) :
  root (fold_left enter comps l) = root l /\
  rev (inner (fold_left enter comps l))
  = fold_left (os_path.norm_step (root l)) comps (rev (inner l)).
Proof.
  revert l. induction comps as [|comp comps IH]; intros l; cbn [fold_left].
  - split; reflexivity.
  - destruct l as [k names].
    destruct (norm_step_enter k names comp) as [Hroot Hinner].
    destruct (IH (enter {| root := k; inner := names |} comp)) as [IHroot IHinner].
    rewrite IHroot, IHinner, Hroot, Hinner. split; reflexivity.
Qed.

(** [normpath] spells out where its argument leads. *)
Lemma normpath_locate (path : string) :
  os_path.normpath path = path_of (locate path).
Proof.
  unfold os_path.normpath, path_of, locate, follow.
  destruct (follow_normpath_loop (str.split os_path.sep_char path)
              {| root := os_path.initial_slashes path; inner := [] |}) as [-> ->].
  cbn [root inner rev].
  destruct (String.eqb_spec path "") as [-> | _]; reflexivity.
Qed.

(** Destructs the comparisons of characters in sight, one by one. *)
Ltac by_chars :=
  repeat match goal with
         | |- context [Ascii.eqb ?a ?b] =>
             destruct (Ascii.eqb_spec a b); subst; cbn -[Ascii.eqb] in *
         | H : context [Ascii.eqb ?a ?b] |- _ =>
             destruct (Ascii.eqb_spec a b); subst; cbn -[Ascii.eqb] in *
         end.

(** Joining a relative path to a directory leaves the leading slashes of
    the directory as they are: they are decided within three characters,
    and the joined path never adds a slash of its own at the front. *)
Lemma initial_slashes_join (cwd path : string) :
  os_path.isabs path = false ->
  os_path.initial_slashes (os_path.join cwd path) = os_path.initial_slashes cwd.
Proof.
  unfold os_path.isabs, os_path.join. intros Hrel. rewrite Hrel.
  destruct ((cwd =? "") || str.endswith cwd os_path.sep) eqn:Hend;
    destruct cwd as [|c1 [|c2 [|c3 r]]]; destruct path as [|f fr];
    try (cbn in Hend; discriminate Hend);
    unfold os_path.initial_slashes, os_path.sep in *; cbn -[Ascii.eqb] in *;
    by_chars; try reflexivity; try discriminate; try congruence.
Qed.

Lemma follow_app_sep (l : location) (a b : string) :
  follow l (a ++ String os_path.sep_char b) = follow (follow l a) b.
Proof. unfold follow. now rewrite split_app_sep, fold_left_app. Qed.

Lemma follow_trailing_sep (l : location) (a : string) :
  follow l (a ++ os_path.sep) = follow l a.
Proof. apply (follow_app_sep l a ""). Qed.

(** Where a joined path leads: follow the relative path from where the
    directory leads. *)
Lemma locate_join (cwd path : string) :
  os_path.isabs path = false ->
  locate (os_path.join cwd path) = follow (locate cwd) path.
Proof.
  intros Hrel. unfold locate. rewrite (initial_slashes_join cwd path Hrel).
  generalize {| root := os_path.initial_slashes cwd; inner := [] |}. intros l.
  unfold os_path.join. unfold os_path.isabs in Hrel. rewrite Hrel.
  destruct ((cwd =? "") || str.endswith cwd os_path.sep) eqn:Hend.
  - apply orb_true_iff in Hend as [Hnil | Hend].
    + apply String.eqb_eq in Hnil as ->. reflexivity.
    + destruct (endswith_sep_inv cwd Hend) as [a ->].
      rewrite follow_trailing_sep, append_assoc. apply follow_app_sep.
  - apply follow_app_sep.
Qed.

(** [abspath(__file__)] spells out the location of the script. *)
Lemma abspath_script_location (p : Process) :
  os_path.abspath (getcwd p) (file p) = path_of (script_location p).
Proof.
  unfold os_path.abspath, script_location.
  destruct (os_path.isabs (file p)) eqn:Habs.
  - apply normpath_locate.
  - rewrite normpath_locate. now rewrite locate_join.
Qed.

(** C8.  Two runs whose [__file__], each read from its own working
    directory, names the same location of the script compute the same
    script directory and the same target directory, whatever their working
    directories are: the paths depend on the working directory only through
    the location of the script. *)
Theorem paths_do_not_depend_on_cwd (p1 p2 : Process) :
  script_location p1 = script_location p2 ->
  tools_dir p1 = tools_dir p2 /\ vcpkg_dir p1 = vcpkg_dir p2.
Proof.
  intros Hsame. unfold vcpkg_dir, tools_dir.
  rewrite !abspath_script_location, Hsame. split; reflexivity.
Qed.

(** When [__file__] is absolute, the location of the script is the same
    from every working directory. *)
Lemma absolute_file_location (p : Process) (cwd : string) :
  os_path.isabs (file p) = true ->
  script_location {| file := file p; getcwd := cwd; platform_system := platform_system p |}
  = script_location p.
Proof. intros Habs. unfold script_location. cbn [file getcwd]. now rewrite Habs. Qed.

(** ** The claims on sample runs *)



Lemma clone_failure_ends_run_witness :
  started (run_log on_linux clone_fails) = [clone_command "/srv/proj/tools/vcpkg"]
  /\ run_result on_linux clone_fails
     = Raised (CalledProcessError 128 (clone_command "/srv/proj/tools/vcpkg")).
Proof.
  destruct (clone_failure_ends_run on_linux clone_fails
              (clone_command "/srv/proj/tools/vcpkg") 128)
    as (_ & _ & Hstarted & _ & Hresult & _).
  - lazy. right. left. reflexivity.
  - reflexivity.
  - discriminate.
  - split; [exact Hstarted | exact Hresult].
Defined.

Lemma no_clone_when_directory_exists_witness :
  isdir_in cloned (vcpkg_dir on_linux) = true
  /\ filter is_clone (started (run_log on_linux cloned)) = []
  /\ started (run_log on_linux cloned)
     = [bootstrap_command (bootstrap_script "Linux" (vcpkg_dir on_linux))].
Proof.
  split; [reflexivity |].
  destruct (no_clone_when_directory_exists on_linux cloned) as [Hnone Honly].
  - reflexivity.
  - split; [exact Hnone |]. apply Honly. reflexivity.
Defined.

(** C4 as the specification states it fails where standard output rejects
    the line that announces the clone: [print] raises and no clone is
    started, though the directory is missing. *)
Lemma no_clone_when_print_raises :
  isdir_in fresh_checkout_unwritable (vcpkg_dir on_linux) = false
  /\ filter is_clone (started (run_log on_linux fresh_checkout_unwritable)) = []
  /\ run_log on_linux fresh_checkout_unwritable = []
  /\ run_result on_linux fresh_checkout_unwritable = Raised OSError.
Proof. repeat split; reflexivity. Qed.

Lemma one_clone_when_directory_missing_witness :
  isdir_in fresh_checkout (vcpkg_dir on_linux) = false
  /\ stdout_write fresh_checkout "Cloning vcpkg from GitHub..." = true
  /\ filter is_clone (started (run_log on_linux fresh_checkout))
     = [["git"; "clone"; "https://github.com/Microsoft/vcpkg.git"; vcpkg_dir on_linux]].
Proof.
  split; [reflexivity |]. split; [reflexivity |].
  refine (proj1 (one_clone_when_directory_missing on_linux fresh_checkout _ _));
    reflexivity.
Defined.

Lemma bootstrap_script_by_platform_witness :
  bootstrap_script (platform_system on_windows) (vcpkg_dir on_windows)
  = vcpkg_dir on_windows ++ "/bootstrap-vcpkg.bat"
  /\ bootstrap_script (platform_system on_linux) (vcpkg_dir on_linux)
     = vcpkg_dir on_linux ++ "/bootstrap-vcpkg.sh".
Proof.
  split.
  - apply (proj1 (bootstrap_script_by_platform on_windows cloned)). reflexivity.
  - apply (proj1 (proj2 (bootstrap_script_by_platform on_linux cloned))). discriminate.
Defined.

Lemma bootstrap_disables_metrics_witness :
  In (Printed "Installing vcpkg...") (run_log on_linux fresh_checkout)
  /\ exists status,
       last (run_log on_linux fresh_checkout) (Printed "")
       = Started [bootstrap_script "Linux" (vcpkg_dir on_linux); "-disableMetrics"] status.
Proof.
  assert (Hreach : In (Printed "Installing vcpkg...") (run_log on_linux fresh_checkout))
    by (lazy; right; right; left; reflexivity).
  split; [exact Hreach |].
  exact (proj1 (proj2 (bootstrap_disables_metrics on_linux fresh_checkout)) Hreach).
Defined.



Lemma paths_do_not_depend_on_cwd_witness :
  script_location from_checkout = script_location from_sibling
  /\ tools_dir from_checkout = tools_dir from_sibling
  /\ vcpkg_dir from_checkout = vcpkg_dir from_sibling.
Proof.
  split; [reflexivity |].
  apply (paths_do_not_depend_on_cwd from_checkout from_sibling). reflexivity.
Defined.

(** C9 as the specification states it fails where standard output rejects
    the line that announces the clone: a regular file sits at the target
    path, [print] raises and no clone is started. *)
Lemma no_clone_over_file_when_print_raises :
  exists_in file_in_the_way_unwritable (vcpkg_dir on_linux) = true
  /\ isdir_in file_in_the_way_unwritable (vcpkg_dir on_linux) = false
  /\ started (run_log on_linux file_in_the_way_unwritable) = []
  /\ run_result on_linux file_in_the_way_unwritable = Raised OSError.
Proof. repeat split; reflexivity. Qed.

Lemma clone_when_path_is_not_a_directory_witness :
  exists_in file_in_the_way (vcpkg_dir on_linux) = true
  /\ isdir_in file_in_the_way (vcpkg_dir on_linux) = false
  /\ stdout_write file_in_the_way "Cloning vcpkg from GitHub..." = true
  /\ exists status,
       nth_error (run_log on_linux file_in_the_way) 1
       = Some (Started ["git"; "clone"; "https://github.com/Microsoft/vcpkg.git";
                        vcpkg_dir on_linux] status).
Proof.
  assert (Hexists : exists_in file_in_the_way (vcpkg_dir on_linux) = true) by reflexivity.
  assert (Hnodir : isdir_in file_in_the_way (vcpkg_dir on_linux) = false) by reflexivity.
  assert (Hprinted : stdout_write file_in_the_way "Cloning vcpkg from GitHub..." = true)
    by reflexivity.
  split; [exact Hexists |]. split; [exact Hnodir |]. split; [exact Hprinted |].
  destruct (proj2 (clone_when_path_is_not_a_directory on_linux file_in_the_way)
              Hexists Hnodir Hprinted) as (status & _ & Hclone).
  exists status. exact Hclone.
Defined.


(** * More about runs *)

Section Runs_more.
Context {W : Type} `{Host W}.



End Runs_more.

(** * More about paths *)

(** ** [rstrip], [rfind] and slices *)

Lemma mul_sep_succ (n : nat) :
  str.mul os_path.sep (S n) = String os_path.sep_char (str.mul os_path.sep n).
Proof. reflexivity. Qed.

Lemma rstrip_snoc (c : ascii) (s : string) :
  str.rstrip c (s ++ String c "") = str.rstrip c s.
Proof.
  induction s as [|a s IH]; cbn [append str.rstrip].
  - now rewrite Ascii.eqb_refl.
  - now rewrite IH.
Qed.

Lemma rstrip_id (c : ascii) (s : string) :
  str.endswith s (String c "") = false -> str.rstrip c s = s.
Proof.
  induction s as [|a s IH]; cbn [str.endswith str.rstrip]; [reflexivity |].
  intros Hend. apply orb_false_iff in Hend as [Hne Hend].
  rewrite (IH Hend). destruct s as [|b s]; [| reflexivity].
  cbn [String.eqb] in Hne. destruct (Ascii.eqb a c); [discriminate | reflexivity].
Qed.

Lemma rstrip_no_trailing (c : ascii) (s : string) :
  str.endswith (str.rstrip c s) (String c "") = false.
Proof.
  induction s as [|a s IH]; cbn [str.rstrip]; [reflexivity |].
  destruct (str.rstrip c s) as [|b r].
  - destruct (Ascii.eqb a c) eqn:Hac; [reflexivity |].
    cbn [str.endswith String.eqb]. now rewrite Hac.
  - cbn [str.endswith String.eqb] in *. rewrite IH.
    destruct (Ascii.eqb a c); reflexivity.
Qed.

(** Only a run of separators strips to nothing. *)
Lemma rstrip_nil (s : string) :
  str.rstrip os_path.sep_char s = "" -> s = str.mul os_path.sep (String.length s).
Proof.
  induction s as [|a s IH]; cbn [str.rstrip String.length]; [reflexivity |].
  destruct (str.rstrip os_path.sep_char s) as [|b r]; [| discriminate].
  destruct (Ascii.eqb_spec a os_path.sep_char) as [-> | _]; [| discriminate].
  intros _. rewrite mul_sep_succ. now rewrite <- IH.
Qed.

(** A run of separators that is not empty ends in one. *)
Lemma mul_sep_endswith (n : nat) :
  str.endswith (str.mul os_path.sep (S n)) os_path.sep = true.
Proof.
  induction n as [|n IH]; [reflexivity |].
  rewrite mul_sep_succ. cbn [str.endswith]. rewrite IH. apply orb_true_r.
Qed.

Lemma mul_sep_snoc (d : string) :
  d ++ os_path.sep = str.mul os_path.sep (String.length (d ++ os_path.sep)) ->
  d = str.mul os_path.sep (String.length d).
Proof.
  induction d as [|a d IH]; [reflexivity |].
  cbn [append String.length]. rewrite !mul_sep_succ.
  intros Heq.
  assert (Ha : a = os_path.sep_char) by congruence.
  assert (Hd : d ++ os_path.sep
               = str.mul os_path.sep (String.length (d ++ os_path.sep))) by congruence.
  now rewrite Ha, <- (IH Hd).
Qed.

Lemma rfind_app_sep (c : ascii) (d name : string) :
  str.rfind c name = (-1)%Z ->
  str.rfind c (d ++ String c name) = Z.of_nat (String.length d).
Proof.
  intros Hnone. induction d as [|a d IH]; cbn [append str.rfind String.length].
  - rewrite Hnone, Ascii.eqb_refl. reflexivity.
  - rewrite IH. destruct (Z.leb_spec 0 (Z.of_nat (String.length d))); lia.
Qed.

Lemma rfind_none_relative (name : string) :
  str.rfind os_path.sep_char name = (-1)%Z -> str.startswith name os_path.sep = false.
Proof.
  destruct name as [|a name]; [reflexivity |].
  cbn [str.rfind str.startswith os_path.sep]. unfold os_path.sep_char.
  rewrite (Ascii.eqb_sym "/" a).
  destruct (Z.leb_spec 0 (str.rfind "/" name)); [lia |].
  destruct (Ascii.eqb a "/"); [intros Hzero; discriminate Hzero | reflexivity].
Qed.

Lemma slice_to_prefix (a b : string) :
  str.slice_to (a ++ b) (Z.of_nat (String.length a)) = a.
Proof.
  unfold str.slice_to. rewrite Nat2Z.id.
  induction a as [|x a IH]; cbn [append String.length String.substring].
  - destruct b; reflexivity.
  - now rewrite IH.
Qed.

(** ** [dirname] after [join] *)

Lemma length_snoc (d : string) :
  String.length (d ++ os_path.sep) = S (String.length d).
Proof. induction d as [|x d IH]; cbn [append String.length]; [reflexivity | now rewrite IH]. Qed.

(** What [dirname] returns is a run of separators (possibly empty) or
    does not end in a separator. *)
Lemma dirname_shape (path : string) :
  os_path.dirname path = str.mul os_path.sep (String.length (os_path.dirname path))
  \/ str.endswith (os_path.dirname path) os_path.sep = false.
Proof.
  unfold os_path.dirname.
  set (head := str.slice_to path (str.rfind os_path.sep_char path + 1)).
  destruct (String.eqb_spec head "") as [Hnil | _]; cbn [negb andb].
  - left. now rewrite Hnil.
  - destruct (String.eqb_spec head (str.mul os_path.sep (String.length head)))
      as [Hall | _]; cbn [negb].
    + left. exact Hall.
    + right. apply rstrip_no_trailing.
Qed.

(** The directory of a name joined to a directory is that directory, for
    a name without separator and a directory as [dirname] returns them or
    without separator at its end. *)
Lemma dirname_join (d name : string) :
  str.rfind os_path.sep_char name = (-1)%Z ->
  d = str.mul os_path.sep (String.length d) \/ str.endswith d os_path.sep = false ->
  os_path.dirname (os_path.join d name) = d.
Proof.
  intros Hname Hshape.
  unfold os_path.join. rewrite (rfind_none_relative name Hname).
  destruct (String.eqb_spec d "") as [-> | Hne]; cbn [orb].
  - unfold os_path.dirname. cbn [append]. rewrite Hname. clear. destruct name; reflexivity.
  - destruct (str.endswith d os_path.sep) eqn:Hend.
    + destruct Hshape as [Hall | Hno]; [| discriminate].
      destruct (endswith_sep_inv d Hend) as [a Ha].
      unfold os_path.dirname.
      replace (d ++ name) with (a ++ String os_path.sep_char name)
        by (rewrite Ha, append_assoc; reflexivity).
      rewrite (rfind_app_sep _ a name Hname).
      replace (a ++ String os_path.sep_char name) with (d ++ name)
        by (rewrite Ha, append_assoc; reflexivity).
      replace (Z.of_nat (String.length a) + 1)%Z with (Z.of_nat (String.length d)).
      * rewrite slice_to_prefix, <- Hall, String.eqb_refl, andb_false_r. reflexivity.
      * rewrite Ha, length_snoc. lia.
    + unfold os_path.dirname.
      change (d ++ os_path.sep ++ name) with (d ++ String os_path.sep_char name).
      rewrite (rfind_app_sep _ d name Hname).
      replace (d ++ String os_path.sep_char name) with ((d ++ os_path.sep) ++ name)
        by (rewrite append_assoc; reflexivity).
      replace (Z.of_nat (String.length d) + 1)%Z
        with (Z.of_nat (String.length (d ++ os_path.sep)))
        by (rewrite length_snoc; lia).
      rewrite slice_to_prefix.
      assert (Hhead : d ++ os_path.sep <> "") by (destruct d; discriminate).
      apply String.eqb_neq in Hhead. rewrite Hhead.
      destruct (String.eqb_spec (d ++ os_path.sep)
                  (str.mul os_path.sep (String.length (d ++ os_path.sep))))
        as [Hall | _]; cbn [negb andb].
      * apply mul_sep_snoc in Hall.
        destruct (String.length d) as [|n] eqn:Hlen.
        -- destruct d; [contradiction | discriminate].
        -- rewrite Hall, mul_sep_endswith in Hend. discriminate.
      * change (d ++ os_path.sep) with (d ++ String os_path.sep_char "").
        rewrite (rstrip_snoc os_path.sep_char d). now apply rstrip_id.
Qed.

(** X8.  The target directory is the child [vcpkg] of the script's
    directory, and the bootstrap script is looked up right inside the
    target directory, the destination of the clone: [os.path.dirname] of
    the bootstrap script is [vcpkg_dir], for every platform identifier,
    and [os.path.dirname] of [vcpkg_dir] is [tools_dir]. *)
Theorem bootstrap_script_is_in_vcpkg_dir (p : Process) (system_platform : string) :
  os_path.dirname (bootstrap_script system_platform (vcpkg_dir p)) = vcpkg_dir p
  /\ os_path.dirname (vcpkg_dir p) = tools_dir p.
Proof.
  split.
  - destruct (vcpkg_dir_shape p) as [_ Hend].
    unfold bootstrap_script.
    destruct (system_platform =? "Windows");
      apply dirname_join; solve [reflexivity | now right].
  - unfold vcpkg_dir at 1. apply dirname_join; [reflexivity |].
    apply dirname_shape.
Qed.

(** ** Absolute paths stay absolute *)

Lemma isabs_cons (path : string) :
  os_path.isabs path = true -> exists rest, path = String os_path.sep_char rest.
Proof.
  destruct path as [|c rest]; [discriminate |].
  unfold os_path.isabs, os_path.sep. cbn [str.startswith].
  destruct (Ascii.eqb_spec "/" c) as [<- | _]; [| discriminate].
  intros _. exists rest. reflexivity.
Qed.

Lemma normpath_isabs (path : string) :
  os_path.isabs path = true -> os_path.isabs (os_path.normpath path) = true.
Proof.
  intros Habs. destruct (isabs_cons path Habs) as [rest ->].
  unfold os_path.normpath. cbn [String.eqb].
  generalize (str.split os_path.sep_char (String os_path.sep_char rest)). intros comps.
  unfold os_path.initial_slashes. fold (os_path.isabs (String os_path.sep_char rest)).
  rewrite Habs.
  destruct (str.startswith _ (str.mul os_path.sep 2) && _);
    match goal with
    | |- context [fold_left ?step comps []] => generalize (fold_left step comps [])
    end; intros new_comps; reflexivity.
Qed.

Lemma join_isabs (a b : string) :
  os_path.isabs a = true -> os_path.isabs (os_path.join a b) = true.
Proof.
  intros Habs. unfold os_path.join.
  destruct (str.startswith b os_path.sep) eqn:Hb; [exact Hb |].
  destruct (isabs_cons a Habs) as [rest ->].
  destruct ((_ =? "") || _); reflexivity.
Qed.

Lemma abspath_isabs (cwd path : string) :
  os_path.isabs cwd = true \/ os_path.isabs path = true ->
  os_path.isabs (os_path.abspath cwd path) = true.
Proof.
  intros Hsome. unfold os_path.abspath.
  destruct (os_path.isabs path) eqn:Hpath.
  - now apply normpath_isabs.
  - destruct Hsome as [Hcwd | Hfalse]; [| discriminate].
    apply normpath_isabs. now apply join_isabs.
Qed.

Lemma dirname_isabs (path : string) :
  os_path.isabs path = true -> os_path.isabs (os_path.dirname path) = true.
Proof.
  intros Habs. destruct (isabs_cons path Habs) as [rest ->].
  unfold os_path.dirname.
  assert (Hi : exists k, Z.to_nat (str.rfind os_path.sep_char
                                     (String os_path.sep_char rest) + 1) = S k).
  { cbn [str.rfind]. rewrite Ascii.eqb_refl.
    destruct (Z.leb_spec 0 (str.rfind os_path.sep_char rest)).
    - exists (Z.to_nat (str.rfind os_path.sep_char rest + 1)). lia.
    - exists 0%nat. reflexivity. }
  destruct Hi as [k Hk]. unfold str.slice_to. rewrite Hk.
  cbn [String.substring]. set (tail := String.substring 0 k rest).
  cbn [String.eqb negb andb String.length]. rewrite mul_sep_succ.
  cbn [String.eqb]. rewrite Ascii.eqb_refl.
  destruct (String.eqb_spec tail (str.mul os_path.sep (String.length tail)))
    as [_ | Hnot]; cbn [negb].
  - reflexivity.
  - cbn [str.rstrip].
    destruct (str.rstrip os_path.sep_char tail) as [|b r] eqn:Hstrip.
    + elim Hnot. exact (rstrip_nil tail Hstrip).
    + reflexivity.
Qed.

(** X7.  When the working directory is absolute, as [os.getcwd()] returns
    it, or [__file__] is, every path the script computes is absolute: the
    script's directory, the target directory handed to [git clone] and the
    bootstrap script it starts, for every platform identifier.  What the
    subprocesses are given does not depend on a working directory of
    theirs. *)
Theorem computed_paths_are_absolute (p : Process) :
  os_path.isabs (getcwd p) = true \/ os_path.isabs (file p) = true ->
  os_path.isabs (tools_dir p) = true
  /\ os_path.isabs (vcpkg_dir p) = true
  /\ forall system_platform,
       os_path.isabs (bootstrap_script system_platform (vcpkg_dir p)) = true.
Proof.
  intros Hsome.
  assert (Htools : os_path.isabs (tools_dir p) = true)
    by (apply dirname_isabs, abspath_isabs, Hsome).
  assert (Hvcpkg : os_path.isabs (vcpkg_dir p) = true) by now apply join_isabs.
  split; [exact Htools |]. split; [exact Hvcpkg |].
  intros system_platform. unfold bootstrap_script.
  destruct (system_platform =? "Windows"); now apply join_isabs.
Qed.

(** ** The further properties on sample runs *)


Lemma computed_paths_are_absolute_witness :
  os_path.isabs (getcwd from_checkout) = true
  /\ os_path.isabs (file from_checkout) = false
  /\ os_path.isabs (tools_dir from_checkout) = true
  /\ os_path.isabs (vcpkg_dir from_checkout) = true.
Proof.
  split; [reflexivity |]. split; [reflexivity |].
  destruct (computed_paths_are_absolute from_checkout (or_introl eq_refl))
    as (Htools & Hvcpkg & _).
  split; [exact Htools | exact Hvcpkg].
Defined.
